(** * scripts/remove_screenshot_data.py

    A shallow embedding of the screenshot stripper and the properties of
    its specification.

    The script reads a JSON file, sets to [None] the ["screenshot"] entry
    of the root object (or of every object of a root array), writes the
    document back and prints how many entries were non-null.

    Layout:
    - [json]: the values [json.load] builds;
    - [dict_get] / [dict_set]: the two [dict] operations the script uses;
    - [remove_screenshots]: lines 30-45, the in-memory transformation;
    - [Module Py]: state (file system, stdout) and exceptions;
    - [remove_screenshots_from_json], [main]: lines 13-63 and 66-81;
    - the theorems, one per property of the specification. *)

From Stdlib Require Import ZArith SpecFloat.
From stdpp Require Import base option list strings gmap pretty.

(** ** Documents *)

(** What [json.load] returns: [None], [bool], [int], [float], [str],
    [list] and [dict]. A [dict] keeps its keys in insertion order, so it
    is an association list; [json.load] never builds one with a repeated
    key (see [unique_keys]). A [float] is carried as its IEEE 754 value and
    is never looked into. The decoder allocates every container afresh, so
    the document is a tree: updating one entry in place cannot be seen
    through another reference, and in-place update is modelled by
    rebuilding the value. *)
#[warnings="-register-all"]
Inductive json : Type :=
  | JNone
  | JBool (b : bool)
  | JInt (n : Z)
  | JFloat (x : spec_float)
  | JStr (s : string)
  | JList (items : list json)
  | JDict (entries : list (string * json)).

Abbreviation dict := (list (string * json)).

(** [v is None] *)
Definition is_none (v : json) : bool :=
  match v with JNone => true | _ => false end.

(** [isinstance(v, dict)] *)
Definition is_dict (v : json) : bool :=
  match v with JDict _ => true | _ => false end.

(** [d[k]] when [k in d]; [None] here stands for [k not in d]. *)
Fixpoint dict_get (k : string) (d : dict) : option json :=
  match d with
  | [] => None
  | (k', v) :: d' => if decide (k' = k) then Some v else dict_get k d'
  end.

(** [d[k] = v]: an existing key keeps its position and takes the new
    value, a new key goes last. *)
Fixpoint dict_set (k : string) (v : json) (d : dict) : dict :=
  match d with
  | [] => [(k, v)]
  | (k', v') :: d' =>
      if decide (k' = k) then (k', v) :: d' else (k', v') :: dict_set k v d'
  end.

(** The invariant of a Python [dict]: no key occurs twice. *)
Definition unique_keys (d : dict) : Prop := NoDup d.*1.

(** ** The transformation (lines 30-45) *)

(** Lines 35-38 for a [dict] item, and again lines 42-45 for a root
    [dict]:
<<
    if "screenshot" in item:
        if item["screenshot"] is not None:
            removed_count += 1
        item["screenshot"] = None
>>
    The counter is threaded through. *)
Definition strip_dict (item : dict) (removed_count : nat) : dict * nat :=
  match dict_get "screenshot" item with
  | Some v =>
      let removed_count :=
        if is_none v then removed_count else S removed_count in
      (dict_set "screenshot" JNone item, removed_count)
  | None => (item, removed_count)
  end.

(** One iteration of the loop of line 34: the guard [isinstance(item, dict)]
    of line 35, then [strip_dict]. *)
Definition strip_item (item : json) (removed_count : nat) : json * nat :=
  match item with
  | JDict d => let '(d', c) := strip_dict d removed_count in (JDict d', c)
  | _ => (item, removed_count)
  end.

(** [for item in data: ...] (lines 34-38), first item first. *)
Fixpoint strip_items (data : list json) (removed_count : nat)
  : list json * nat :=
  match data with
  | [] => ([], removed_count)
  | item :: rest =>
      let '(item', c) := strip_item item removed_count in
      let '(rest', c') := strip_items rest c in
      (item' :: rest', c')
  end.

(** Lines 30-45: [removed_count = 0], then the [list] branch, the [dict]
    branch, or neither. Returns the document as it is after the updates
    and [removed_count]. *)
Definition remove_screenshots (data : json) : json * nat :=
  let removed_count := 0 in
  match data with
  | JList items =>
      let '(items', c) := strip_items items removed_count in (JList items', c)
  | JDict d =>
      let '(d', c) := strip_dict d removed_count in (JDict d', c)
  | _ => (data, removed_count)
  end.

(** ** State and exceptions *)

Module Py.

(** The exceptions the script tells apart, in the order of its [except]
    clauses (lines 55-63), and [SystemExit], which [sys.exit] raises and
    no clause of the script catches. [msg] is [str(e)]. *)
Inductive exn : Type :=
  | FileNotFoundError
  | JSONDecodeError (msg : string)
  | Exception (msg : string)
  | SystemExit (code : Z).

Inductive result (A : Type) : Type :=
  | Ok (a : A)
  | Raise (e : exn).
Arguments Ok {A} a.
Arguments Raise {A} e.

(** A path that exists names either a file of UTF-8 text, or something
    [open(path, "r")] or [read] fails on with an exception that is not
    [FileNotFoundError] (a directory, a file without read permission,
    bytes that are not UTF-8); [err] is that exception's message. *)
Inductive node : Type :=
  | TextFile (text : string)
  | Unreadable (err : string).

(** What a run can change: the files and the lines printed so far. The
    files are kept under the name the operating system resolves a path
    to ([resolve] below), since several paths can name one file. *)
Record world : Type := World {
  fs : gmap string node;
  stdout : list string;
}.

Definition io (A : Type) : Type := world → result A * world.

#[export] Instance io_ret : MRet io := λ A a w, (Ok a, w).

#[export] Instance io_bind : MBind io := λ A B k m w,
  match m w with
  | (Ok a, w') => k a w'
  | (Raise e, w') => (Raise e, w')
  end.

Definition raise {A : Type} (e : exn) : io A := λ w, (Raise e, w).

(** [try: body except ...: handler] *)
Definition try_except {A : Type} (body : io A) (handler : exn → io A)
  : io A := λ w,
  match body w with
  | (Ok a, w') => (Ok a, w')
  | (Raise e, w') => handler e w'
  end.

(** [print(line)]; the terminal takes every line. *)
Definition print (line : string) : io unit := λ w,
  (Ok tt, {| fs := fs w; stdout := stdout w ++ [line] |}).

(** [sys.exit(code)] *)
Definition sys_exit {A : Type} (code : Z) : io A := raise (SystemExit code).

(** The exit status of the process when the script's [main] ends with
    [r]: 0 when it returns, the code of [sys.exit], 1 for a traceback. *)
Definition exit_status {A : Type} (r : result A) : Z :=
  match r with
  | Ok _ => 0
  | Raise (SystemExit code) => code
  | Raise _ => 1
  end.

(** *** What the script calls and does not define *)

(** [json.loads(text)]: a document, [json.JSONDecodeError] with its
    message, or another exception ([RecursionError] on deep nesting). *)
Inductive load_result : Type :=
  | Loaded (data : json)
  | Malformed (msg : string)
  | LoadFailed (msg : string).

(** [json.dump(data, f, indent=2, ensure_ascii=False)] on a file just
    opened for writing: the whole text, or an exception after [written]
    reached the file ([UnicodeEncodeError] on a lone surrogate, a full
    disk). *)
Inductive dump_result : Type :=
  | Dumped (text : string)
  | DumpFailed (written : string) (msg : string).

(** Why [open(path, "w")] fails: a missing parent directory
    ([FileNotFoundError]), or any other [OSError] with its message. *)
Inductive open_error : Type :=
  | ENOENT
  | EOther (msg : string).

Definition exn_of_open_error (e : open_error) : exn :=
  match e with
  | ENOENT => FileNotFoundError
  | EOther msg => Exception msg
  end.

(** The standard library and the operating system, as the script sees
    them. [resolve path] is the file that [path] names, once the
    operating system has followed the current directory, [.] and [..]
    and links: two paths name the same file exactly when they resolve
    alike. [open_w path] is [None] when [open(path, "w")] succeeds. *)
Record library : Type := Library {
  json_loads : string → load_result;
  json_dumps : json → dump_result;
  resolve : string → string;
  open_w : string → option open_error;
}.

Section with_library.
Context (L : library).

(** [os.path.exists(path)] *)
Definition os_path_exists (path : string) : io bool := λ w,
  (Ok (bool_decide (is_Some (fs w !! resolve L path))), w).

(** Lines 26-27:
<<
with open(input_file, "r", encoding="utf-8") as f:
    data = json.load(f)
>>  *)
Definition load_file (path : string) : io json := λ w,
  match fs w !! resolve L path with
  | None => (Raise FileNotFoundError, w)
  | Some (Unreadable err) => (Raise (Exception err), w)
  | Some (TextFile text) =>
      match json_loads L text with
      | Loaded data => (Ok data, w)
      | Malformed msg => (Raise (JSONDecodeError msg), w)
      | LoadFailed msg => (Raise (Exception msg), w)
      end
  end.

(** Lines 48-49:
<<
with open(output_file, "w", encoding="utf-8") as f:
    json.dump(data, f, indent=2, ensure_ascii=False)
>>
    Opening truncates the file that [path] names, so what [json.dump]
    managed to write is all that file holds afterwards. *)
Definition dump_file (path : string) (data : json) : io unit := λ w,
  match open_w L path with
  | Some e => (Raise (exn_of_open_error e), w)
  | None =>
      match json_dumps L data with
      | Dumped text =>
          (Ok tt,
           {| fs := <[resolve L path := TextFile text]> (fs w);
              stdout := stdout w |})
      | DumpFailed written msg =>
          (Raise (Exception msg),
           {| fs := <[resolve L path := TextFile written]> (fs w);
              stdout := stdout w |})
      end
  end.

(** Lines 13-63. *)
Definition remove_screenshots_from_json
    (input_file : string) (output_file : option string) : io unit :=
  let output_file := default input_file output_file in
  try_except
    (data ← load_file input_file;
     let '(data, removed_count) := remove_screenshots data in
     dump_file output_file data;;
     print ("Successfully processed " +:+ input_file);;
     print ("Removed " +:+ pretty removed_count +:+ " screenshot entries");;
     print ("Output written to " +:+ output_file))
    (λ e,
       match e with
       | FileNotFoundError =>
           print ("Error: File " +:+ input_file +:+ " not found");;
           sys_exit 1
       | JSONDecodeError msg =>
           print ("Error: Invalid JSON in " +:+ input_file +:+ ": "
                  +:+ msg);;
           sys_exit 1
       | Exception msg =>
           print ("Error processing file: " +:+ msg);;
           sys_exit 1
       | SystemExit code => raise (SystemExit code)
       end).

(** Lines 66-81; [argv] is [sys.argv]. *)
Definition main (argv : list string) : io unit :=
  if bool_decide (length argv < 2) then
    print
      "Usage: python remove_screenshot_data.py <input_file> [output_file]";;
    print
      "Example: python remove_screenshot_data.py hitl/hitl-form-input.json";;
    sys_exit 1
  else
    let input_file := argv !!! 1 in
    let output_file :=
      if bool_decide (2 < length argv) then Some (argv !!! 2) else None in
    found ← os_path_exists input_file;
    if negb found then
      print ("Error: Input file " +:+ input_file +:+ " does not exist");;
      sys_exit 1
    else
      remove_screenshots_from_json input_file output_file.

End with_library.

End Py.

(** ** The vocabulary of the specification *)

(** "A [screenshot] key whose value is non-null", for one entry. *)
Definition nonnull_screenshot_entry (kv : string * json) : Prop :=
  kv.1 = "screenshot" ∧ kv.2 ≠ JNone.

(** "An object containing a [screenshot] key whose value is non-null". *)
Definition nonnull_screenshot (item : json) : Prop :=
  match item with
  | JDict d => Exists nonnull_screenshot_entry d
  | _ => False
  end.

#[global] Instance json_is_none_dec (v : json) : Decision (v = JNone).
Proof. destruct v; (by left) || (by right). Defined.

#[global] Instance nonnull_screenshot_dec (item : json) :
  Decision (nonnull_screenshot item).
Proof. destruct item; simpl; apply _. Defined.

(** The removal count the specification asks for. *)
Definition expected_count (data : json) : nat :=
  match data with
  | JList items => length (filter nonnull_screenshot items)
  | JDict _ => if decide (nonnull_screenshot data) then 1 else 0
  | _ => 0
  end.

(** "Every [screenshot] key has its value replaced by null; every other
    key keeps its value": entry by entry, in the order of the entries. *)
Definition null_entry (kv : string * json) : string * json :=
  if decide (kv.1 = "screenshot") then (kv.1, JNone) else kv.

Definition null_object (d : dict) : dict := null_entry <$> d.

Definition null_element (item : json) : json :=
  match item with
  | JDict d => JDict (null_object d)
  | _ => item
  end.

(** The output document the specification asks for: the root object, or
    each object element of a root array, with its [screenshot] entry
    nulled, and nothing below that level looked at. *)
Definition null_top_screenshots (data : json) : json :=
  match data with
  | JDict d => JDict (null_object d)
  | JList items => JList (null_element <$> items)
  | _ => data
  end.

(** The objects the script looks into are the root object and the object
    elements of a root array; they are Python [dict]s. *)
Definition element_unique_keys (item : json) : Prop :=
  match item with
  | JDict d => unique_keys d
  | _ => True
  end.

Definition top_unique_keys (data : json) : Prop :=
  match data with
  | JDict d => unique_keys d
  | JList items => Forall element_unique_keys items
  | _ => True
  end.

#[global] Instance unique_keys_dec (d : dict) : Decision (unique_keys d).
Proof. unfold unique_keys. apply _. Defined.

#[global] Instance element_unique_keys_dec (item : json) :
  Decision (element_unique_keys item).
Proof. destruct item; simpl; apply _. Defined.

#[global] Instance top_unique_keys_dec (data : json) :
  Decision (top_unique_keys data).
Proof. destruct data; simpl; apply _. Defined.

(** "An array of objects": every element is an object. *)
Definition array_of_objects (data : json) : Prop :=
  ∃ items, data = JList items ∧ Forall (λ item, is_dict item = true) items.

(** An object that has a [screenshot] key. *)
Definition has_screenshot_key (item : json) : Prop :=
  match item with
  | JDict d => "screenshot" ∈ d.*1
  | _ => False
  end.

(** The path the result goes to: [sys.argv[2]] when given, else
    [sys.argv[1]]. *)
Definition output_path (argv : list string) : option string :=
  match argv !! 2 with
  | Some output_file => Some output_file
  | None => argv !! 1
  end.

(** The lines a successful run prints (lines 51-53). *)
Definition success_report (input_file output_file : string) (count : nat)
  : list string :=
  [ "Successfully processed " +:+ input_file;
    "Removed " +:+ pretty count +:+ " screenshot entries";
    "Output written to " +:+ output_file ].

(** The world after [lines] more were printed. *)
Definition printed (w : Py.world) (lines : list string) : Py.world :=
  {| Py.fs := Py.fs w; Py.stdout := Py.stdout w ++ lines |}.

(** The world after [text] was written to [file]. *)
Definition written (w : Py.world) (file : string) (text : string)
  : Py.world :=
  {| Py.fs := <[file := Py.TextFile text]> (Py.fs w);
     Py.stdout := Py.stdout w |}.

(** What a run did to the files: nothing, or [text] put in [file]. *)
Definition changed (change : option (string * string)) (w : Py.world)
  : Py.world :=
  match change with
  | Some (file, text) => written w file text
  | None => w
  end.

(** A run goes through: the input is a text file that decodes to [data],
    the output path opens for writing, and the encoder writes [text]. *)
Record succeeds (L : Py.library) (w : Py.world)
    (input_file output_file : string) (data : json) (text : string) : Prop := {
  succeeds_read :
    ∃ source,
      Py.fs w !! Py.resolve L input_file = Some (Py.TextFile source)
              ∧ Py.json_loads L source = Py.Loaded data;
  succeeds_open : Py.open_w L output_file = None;
  succeeds_dump :
    Py.json_dumps L (remove_screenshots data).1 = Py.Dumped text;
}.

(** The ways a command-line run fails, as the specification lists them
    for exit status 1. A processing exception is any exception other than
    the two named ones: reading fails, decoding fails with something that
    is not a syntax error, the output does not open, or encoding fails. *)
Inductive processing_exception (L : Py.library) (w : Py.world)
    (input_file output_file : string) : Prop :=
  | ReadFails err :
      Py.fs w !! Py.resolve L input_file = Some (Py.Unreadable err) →
      processing_exception L w input_file output_file
  | LoadFails source msg :
      Py.fs w !! Py.resolve L input_file = Some (Py.TextFile source) →
      Py.json_loads L source = Py.LoadFailed msg →
      processing_exception L w input_file output_file
  | OpenFails source data e :
      Py.fs w !! Py.resolve L input_file = Some (Py.TextFile source) →
      Py.json_loads L source = Py.Loaded data →
      Py.open_w L output_file = Some e →
      processing_exception L w input_file output_file
  | DumpFails source data written msg :
      Py.fs w !! Py.resolve L input_file = Some (Py.TextFile source) →
      Py.json_loads L source = Py.Loaded data →
      Py.open_w L output_file = None →
      Py.json_dumps L (remove_screenshots data).1
        = Py.DumpFailed written msg →
      processing_exception L w input_file output_file.

Inductive failure (L : Py.library) (argv : list string) (w : Py.world)
  : Prop :=
  | MissingArgument :
      length argv < 2 → failure L argv w
  | InputMissing input_file :
      argv !! 1 = Some input_file →
      Py.fs w !! Py.resolve L input_file = None →
      failure L argv w
  | InvalidJSON input_file source msg :
      argv !! 1 = Some input_file →
      Py.fs w !! Py.resolve L input_file = Some (Py.TextFile source) →
      Py.json_loads L source = Py.Malformed msg →
      failure L argv w
  | ProcessingException input_file output_file :
      argv !! 1 = Some input_file →
      output_path argv = Some output_file →
      processing_exception L w input_file output_file →
      failure L argv w.

(** ** A small world to run the script in *)

Module Sample.
Import Py.

Definition dq : string := String (Ascii.ascii_of_nat 34) "".

(** An encoder for the documents below: one line, strings not escaped,
    every [float] printed as [0.0]. *)
Fixpoint render (v : json) : string :=
  match v with
  | JNone => "null"
  | JBool b => if b then "true" else "false"
  | JInt n => pretty n
  | JFloat _ => "0.0"
  | JStr s => dq +:+ s +:+ dq
  | JList items => "[" +:+ String.concat ", " (List.map render items) +:+ "]"
  | JDict d =>
      "{" +:+ String.concat ", "
                (List.map (λ '(k, v), dq +:+ k +:+ dq +:+ ": " +:+ render v) d)
          +:+ "}"
  end.

(** The array of the specification's concrete scenario. *)
Definition entries : json :=
  JList [ JDict [("id", JInt 1); ("screenshot", JStr "AAAA")];
          JDict [("id", JInt 2); ("screenshot", JNone)];
          JDict [("id", JInt 3)] ].

(** The same array once the script has run. *)
Definition cleaned : json :=
  JList [ JDict [("id", JInt 1); ("screenshot", JNone)];
          JDict [("id", JInt 2); ("screenshot", JNone)];
          JDict [("id", JInt 3)] ].

Definition entry : json :=
  JDict [("id", JInt 1); ("screenshot", JStr "AAAA"); ("note", JNone)].

Definition mixed_array : json :=
  JList [JInt 1; JDict [("screenshot", JStr "AAAA")]].

Definition scalars : json :=
  JList [JInt 1; JStr "a"; JNone].

Definition numbers : json :=
  JList [JInt 1; JInt 2].

(** A decoder that knows the documents above, and that white space
    between the elements of an array does not matter. *)
Definition loads (text : string) : load_result :=
  if decide (text = render entries) then Loaded entries
  else if decide (text = render cleaned) then Loaded cleaned
  else if decide (text = render entry) then Loaded entry
  else if decide (text = render mixed_array) then Loaded mixed_array
  else if decide (text = render scalars) then Loaded scalars
  else if decide (text = "[1, 2]") then Loaded numbers
  else if decide (text = "[1,2]") then Loaded numbers
  else if decide (text = "{not valid json") then
    Malformed
      "Expecting property name enclosed in double quotes: line 1 column 2 (char 1)"
  else Malformed "Expecting value: line 1 column 1 (char 0)".

(** Here [./name] and [name] are one file, and no other two paths
    are. *)
Definition file_of (path : string) : string :=
  if String.prefix "./" path
  then String.substring 2 (String.length path - 2) path
  else path.

Definition lib : library := {|
  json_loads := loads;
  json_dumps := λ data, Dumped (render data);
  resolve := file_of;
  open_w := λ path,
    if decide (path = "missing/out.json") then Some ENOENT else None;
|}.

Definition files : gmap string node :=
  {[ "hitl/hitl-form-input.json" := TextFile (render entries);
     "entry.json" := TextFile (render entry);
     "mixed.json" := TextFile (render mixed_array);
     "scalars.json" := TextFile (render scalars);
     "numbers.json" := TextFile "[1, 2]";
     "broken.json" := TextFile "{not valid json";
     "hitl" := Unreadable "[Errno 21] Is a directory: 'hitl'" ]}.

Definition start : world := {| fs := files; stdout := [] |}.

(** Another machine, later: the same array under the same name, typed
    without the space, next to nothing else, and a line already on the
    terminal. *)
Definition elsewhere : world :=
  {| fs := {[ "numbers.json" := TextFile "[1,2]" ]};
     stdout := ["$ python remove_screenshot_data.py numbers.json"] |}.

End Sample.

(** ** The same world on a full disk *)

Module FullDisk.
Import Py.

(** [json.dump] gets one character out and fails. *)
Definition lib : library := {|
  json_loads := Sample.loads;
  json_dumps := λ _, DumpFailed "[" "[Errno 28] No space left on device";
  resolve := Sample.file_of;
  open_w := λ _, None;
|}.

End FullDisk.

(** ** Dictionaries *)

Section dict_facts.
Implicit Types (k : string) (v : json) (d : dict).

Lemma dict_get_None k d : dict_get k d = None ↔ k ∉ d.*1.
Proof.
  induction d as [|[k' v'] d IH]; simpl.
  - split; [intros _; apply not_elem_of_nil | done].
  - rewrite not_elem_of_cons. case_decide; subst.
    + split; [done | intros [? _]; done].
    + rewrite IH. split; [intros ?; split; [congruence | done] | by intros [_ ?]].
Qed.

Lemma dict_get_Some_elem k v d : dict_get k d = Some v → (k, v) ∈ d.
Proof.
  induction d as [|[k' v'] d IH]; simpl; [done |].
  case_decide; subst.
  - intros Hv. injection Hv as <-. apply list_elem_of_here.
  - intros Hv. apply list_elem_of_further, IH, Hv.
Qed.

Lemma dict_get_unique k v d :
  unique_keys d → (k, v) ∈ d → dict_get k d = Some v.
Proof.
  unfold unique_keys.
  induction d as [|[k' v'] d IH]; simpl; [by intros _ ?%elem_of_nil |].
  intros [Hk Hd]%NoDup_cons [Heq | Hin]%elem_of_cons.
  - injection Heq as -> ->. by rewrite decide_True.
  - case_decide; subst; [| by apply IH].
    destruct Hk. apply list_elem_of_fmap. by exists (k, v).
Qed.

Lemma dict_get_set k v d : dict_get k (dict_set k v d) = Some v.
Proof.
  induction d as [|[k' v'] d IH]; simpl.
  - by rewrite decide_True.
  - case_decide; simpl; subst.
    + by rewrite decide_True.
    + by rewrite decide_False.
Qed.

Lemma dict_set_set k v d : dict_set k v (dict_set k v d) = dict_set k v d.
Proof.
  induction d as [|[k' v'] d IH]; simpl.
  - by rewrite decide_True.
  - case_decide; simpl; subst.
    + by rewrite decide_True.
    + rewrite decide_False by done. by rewrite IH.
Qed.

Lemma null_object_without d : "screenshot" ∉ d.*1 → null_object d = d.
Proof.
  unfold null_object.
  induction d as [|[k' v'] d IH]; csimpl; [done |].
  intros [Hne Hd]%not_elem_of_cons.
  unfold null_entry at 1; simpl. rewrite decide_False by done.
  by rewrite IH.
Qed.

Lemma dict_set_null_object d :
  unique_keys d → "screenshot" ∈ d.*1 →
  dict_set "screenshot" JNone d = null_object d.
Proof.
  unfold unique_keys, null_object.
  induction d as [|[k' v'] d IH]; csimpl; [by intros _ ?%elem_of_nil |].
  intros [Hk Hd]%NoDup_cons Hin.
  unfold null_entry at 1; simpl. case_decide; subst.
  - f_equal. symmetry. by apply null_object_without.
  - f_equal. apply IH; [done |].
    apply elem_of_cons in Hin as [? | ?]; congruence.
Qed.

Lemma null_object_keys d : (null_object d).*1 = d.*1.
Proof.
  unfold null_object. rewrite <- list_fmap_compose.
  apply list_fmap_ext. intros _ [k v] _. simpl.
  unfold null_entry. by case_decide.
Qed.

Lemma nonnull_screenshot_get d :
  unique_keys d →
  nonnull_screenshot (JDict d)
  ↔ ∃ v, dict_get "screenshot" d = Some v ∧ v ≠ JNone.
Proof.
  intros Hd. simpl. rewrite Exists_exists. split.
  - intros [[k v] [Hin [Hk Hv]]]. simpl in *. subst.
    exists v. split; [by apply dict_get_unique | done].
  - intros [v [Hget Hv]]. exists ("screenshot", v).
    split; [by apply dict_get_Some_elem | done].
Qed.

End dict_facts.

(** ** The transformation, step by step *)

Section strip_facts.
Implicit Types (d : dict) (c : nat) (item : json) (items : list json).

Lemma strip_dict_fst d c :
  unique_keys d → (strip_dict d c).1 = null_object d.
Proof.
  intros Hd. unfold strip_dict.
  destruct (dict_get "screenshot" d) as [v|] eqn:Hget; simpl.
  - apply dict_set_null_object; [done |].
    apply dict_get_Some_elem in Hget.
    apply list_elem_of_fmap. by exists ("screenshot", v).
  - symmetry. by apply null_object_without, dict_get_None.
Qed.

Lemma strip_dict_snd d c :
  unique_keys d →
  (strip_dict d c).2
  = c + (if decide (nonnull_screenshot (JDict d)) then 1 else 0).
Proof.
  intros Hd. unfold strip_dict.
  destruct (decide (nonnull_screenshot (JDict d))) as [Hn | Hn];
    rewrite nonnull_screenshot_get in Hn by done.
  - destruct Hn as [v [-> Hv]]. simpl. destruct v; simpl; (done || lia).
  - destruct (dict_get "screenshot" d) as [v|]; simpl; [| lia].
    destruct v; simpl; try lia; destruct Hn; eauto.
Qed.

(** A second pass finds the entry already null. *)
Lemma strip_dict_again d c c' :
  strip_dict (strip_dict d c).1 c' = ((strip_dict d c).1, c').
Proof.
  unfold strip_dict at 2 3.
  destruct (dict_get "screenshot" d) as [v|] eqn:Hget; simpl.
  - unfold strip_dict. rewrite dict_get_set. simpl.
    by rewrite dict_set_set.
  - unfold strip_dict. by rewrite Hget.
Qed.

Lemma strip_item_fst item c :
  element_unique_keys item → (strip_item item c).1 = null_element item.
Proof.
  destruct item as [| | | | | |d]; simpl; try done.
  intros Hd. rewrite <- (strip_dict_fst d c Hd).
  by destruct (strip_dict d c).
Qed.

Lemma strip_item_snd item c :
  element_unique_keys item →
  (strip_item item c).2
  = c + (if decide (nonnull_screenshot item) then 1 else 0).
Proof.
  destruct item as [| | | | | |d]; try (intros _; simpl; lia).
  intros Hd. rewrite <- (strip_dict_snd d c Hd). simpl.
  by destruct (strip_dict d c).
Qed.

Lemma strip_item_again item c c' :
  strip_item (strip_item item c).1 c' = ((strip_item item c).1, c').
Proof.
  destruct item as [| | | | | |d]; simpl; try done.
  pose proof (strip_dict_again d c c') as Hd.
  destruct (strip_dict d c) as [d' n]; simpl in *. by rewrite Hd.
Qed.

Lemma strip_items_fst items c :
  Forall element_unique_keys items →
  (strip_items items c).1 = null_element <$> items.
Proof.
  intros Hall. revert c.
  induction Hall as [|item items Hitem _ IH]; intros c; simpl; [done |].
  pose proof (strip_item_fst item c Hitem) as Hfst.
  destruct (strip_item item c) as [item' c1]; simpl in *.
  specialize (IH c1).
  destruct (strip_items items c1) as [rest' c2]; simpl in *.
  by rewrite Hfst, IH.
Qed.

Lemma strip_items_snd items c :
  Forall element_unique_keys items →
  (strip_items items c).2 = c + length (filter nonnull_screenshot items).
Proof.
  intros Hall. revert c.
  induction Hall as [|item items Hitem _ IH]; intros c; simpl; [lia |].
  pose proof (strip_item_snd item c Hitem) as Hsnd.
  destruct (strip_item item c) as [item' c1]; simpl in *.
  specialize (IH c1).
  destruct (strip_items items c1) as [rest' c2]; simpl in *.
  rewrite IH, Hsnd, filter_cons.
  destruct (decide (nonnull_screenshot item)); simpl; lia.
Qed.

Lemma strip_items_again items c c' :
  strip_items (strip_items items c).1 c' = ((strip_items items c).1, c').
Proof.
  revert c c'. induction items as [|item items IH]; intros c c'; [done |].
  simpl.
  pose proof (strip_item_again item c c') as Hitem.
  destruct (strip_item item c) as [item' c1]; simpl in *.
  specialize (IH c1 c').
  destruct (strip_items items c1) as [rest' c2]; simpl in *.
  by rewrite Hitem, IH.
Qed.

Lemma remove_screenshots_fst data :
  top_unique_keys data →
  (remove_screenshots data).1 = null_top_screenshots data.
Proof.
  destruct data as [| | | | |items|d]; simpl; try done.
  - intros Hall. rewrite <- (strip_items_fst items 0 Hall).
    by destruct (strip_items items 0).
  - intros Hd. rewrite <- (strip_dict_fst d 0 Hd).
    by destruct (strip_dict d 0).
Qed.

Lemma remove_screenshots_snd data :
  top_unique_keys data →
  (remove_screenshots data).2 = expected_count data.
Proof.
  destruct data as [| | | | |items|d]; try done.
  - intros Hall. pose proof (strip_items_snd items 0 Hall) as Hc.
    unfold remove_screenshots, expected_count.
    by destruct (strip_items items 0).
  - intros Hd. pose proof (strip_dict_snd d 0 Hd) as Hc.
    unfold remove_screenshots, expected_count.
    by destruct (strip_dict d 0).
Qed.

End strip_facts.

(** ** Runs of the script *)

Section run_facts.
Import Py.
Context (L : library).
Implicit Types (w : world) (argv : list string).

Ltac run :=
  unfold remove_screenshots_from_json, try_except, load_file, dump_file,
    sys_exit, raise, print, mbind, io_bind; simpl.

Lemma run_input_missing input_file output_file w :
  fs w !! resolve L input_file = None →
  remove_screenshots_from_json L input_file output_file w
  = (Raise (SystemExit 1),
     printed w ["Error: File " +:+ input_file +:+ " not found"]).
Proof. intros Hin. run. by rewrite Hin. Qed.

Lemma run_unreadable input_file output_file w err :
  fs w !! resolve L input_file = Some (Unreadable err) →
  remove_screenshots_from_json L input_file output_file w
  = (Raise (SystemExit 1), printed w ["Error processing file: " +:+ err]).
Proof. intros Hin. run. by rewrite Hin. Qed.

Lemma run_malformed input_file output_file w source msg :
  fs w !! resolve L input_file = Some (TextFile source) →
  json_loads L source = Malformed msg →
  remove_screenshots_from_json L input_file output_file w
  = (Raise (SystemExit 1),
     printed w ["Error: Invalid JSON in " +:+ input_file +:+ ": " +:+ msg]).
Proof. intros Hin Hload. run. by rewrite Hin, Hload. Qed.

Lemma run_load_failed input_file output_file w source msg :
  fs w !! resolve L input_file = Some (TextFile source) →
  json_loads L source = LoadFailed msg →
  remove_screenshots_from_json L input_file output_file w
  = (Raise (SystemExit 1), printed w ["Error processing file: " +:+ msg]).
Proof. intros Hin Hload. run. by rewrite Hin, Hload. Qed.

Lemma run_open_failed input_file output_file w source data e :
  fs w !! resolve L input_file = Some (TextFile source) →
  json_loads L source = Loaded data →
  open_w L (default input_file output_file) = Some e →
  remove_screenshots_from_json L input_file output_file w
  = (Raise (SystemExit 1),
     printed w
       [match e with
        | ENOENT => "Error: File " +:+ input_file +:+ " not found"
        | EOther msg => "Error processing file: " +:+ msg
        end]).
Proof.
  intros Hin Hload Hopen. run. rewrite Hin, Hload.
  destruct (remove_screenshots data) as [data' n]; simpl.
  rewrite Hopen. by destruct e.
Qed.

Lemma run_dump_failed input_file output_file w source data partial msg :
  fs w !! resolve L input_file = Some (TextFile source) →
  json_loads L source = Loaded data →
  open_w L (default input_file output_file) = None →
  json_dumps L (remove_screenshots data).1 = DumpFailed partial msg →
  remove_screenshots_from_json L input_file output_file w
  = (Raise (SystemExit 1),
     printed
       (written w (resolve L (default input_file output_file)) partial)
       ["Error processing file: " +:+ msg]).
Proof.
  intros Hin Hload Hopen Hdump. run. rewrite Hin, Hload.
  destruct (remove_screenshots data) as [data' n]; simpl in *.
  by rewrite Hopen, Hdump.
Qed.

Lemma run_succeeds input_file output_file w data text :
  succeeds L w input_file (default input_file output_file) data text →
  remove_screenshots_from_json L input_file output_file w
  = (Ok (),
     printed (written w (resolve L (default input_file output_file)) text)
       (success_report input_file (default input_file output_file)
          (remove_screenshots data).2)).
Proof.
  intros [[source [Hin Hload]] Hopen Hdump]. run. rewrite Hin, Hload.
  destruct (remove_screenshots data) as [data' n]; simpl in *.
  rewrite Hopen, Hdump. unfold printed, written, success_report; simpl.
  by rewrite <- !app_assoc.
Qed.

Lemma main_missing_argument argv w :
  length argv < 2 →
  main L argv w
  = (Raise (SystemExit 1),
     printed w
       ["Usage: python remove_screenshot_data.py <input_file> [output_file]";
        "Example: python remove_screenshot_data.py hitl/hitl-form-input.json"]).
Proof.
  intros Hlen. unfold main. rewrite bool_decide_eq_true_2 by done.
  unfold printed, sys_exit, raise, print, mbind, io_bind; simpl.
  by rewrite <- app_assoc.
Qed.

Lemma main_input_missing argv w input_file :
  argv !! 1 = Some input_file →
  fs w !! resolve L input_file = None →
  main L argv w
  = (Raise (SystemExit 1),
     printed w ["Error: Input file " +:+ input_file +:+ " does not exist"]).
Proof.
  intros Harg Hin. unfold main.
  apply lookup_lt_Some in Harg as Hlen.
  rewrite bool_decide_eq_false_2 by lia.
  rewrite (list_lookup_total_correct _ _ _ Harg).
  unfold os_path_exists, sys_exit, raise, print, mbind, io_bind; simpl.
  rewrite Hin. by rewrite bool_decide_eq_false_2 by by intros [? ?].
Qed.

Lemma main_input_exists argv w input_file :
  argv !! 1 = Some input_file →
  is_Some (fs w !! resolve L input_file) →
  main L argv w = remove_screenshots_from_json L input_file (argv !! 2) w.
Proof.
  intros Harg Hin. unfold main.
  apply lookup_lt_Some in Harg as Hlen.
  rewrite bool_decide_eq_false_2 by lia.
  rewrite (list_lookup_total_correct _ _ _ Harg).
  unfold os_path_exists, mbind, io_bind; simpl.
  rewrite bool_decide_eq_true_2 by done. simpl.
  case_bool_decide as Hout.
  - apply lookup_lt_is_Some in Hout as [output_file Hout].
    by rewrite (list_lookup_total_correct _ _ _ Hout), Hout.
  - by rewrite lookup_ge_None_2 by lia.
Qed.

Lemma output_path_default argv input_file :
  argv !! 1 = Some input_file →
  output_path argv = Some (default input_file (argv !! 2)).
Proof. intros Harg. unfold output_path. by destruct (argv !! 2). Qed.

End run_facts.

(** ** The script at work *)

(** The array of the specification's scenario: one entry is counted. *)
Example entries_cleaned :
  remove_screenshots Sample.entries = (Sample.cleaned, 1).
Proof. reflexivity. Qed.

(** No argument: the usage lines and exit status 1. *)
Example usage_when_no_argument :
  Py.main Sample.lib ["remove_screenshot_data.py"] Sample.start
  = (Py.Raise (Py.SystemExit 1),
     printed Sample.start
       ["Usage: python remove_screenshot_data.py <input_file> [output_file]";
        "Example: python remove_screenshot_data.py hitl/hitl-form-input.json"]).
Proof. reflexivity. Qed.

(** The input is a directory: the catch-all clause of line 61. *)
Example input_is_a_directory :
  Py.main Sample.lib ["remove_screenshot_data.py"; "hitl"] Sample.start
  = (Py.Raise (Py.SystemExit 1),
     printed Sample.start
       ["Error processing file: [Errno 21] Is a directory: 'hitl'"]).
Proof. reflexivity. Qed.

(** The directory of the output path is missing: [open] raises
    [FileNotFoundError], which the clause of line 55 reports with the
    name of the input file. *)
Example output_directory_is_missing :
  Py.main Sample.lib
    ["remove_screenshot_data.py"; "mixed.json"; "missing/out.json"]
    Sample.start
  = (Py.Raise (Py.SystemExit 1),
     printed Sample.start ["Error: File mixed.json not found"]).
Proof. reflexivity. Qed.

(** * The properties of the specification *)

(** An entry whose [screenshot] is already null is not one the count
    takes. *)
Lemma null_screenshot_not_counted (d : dict) :
  unique_keys d → ("screenshot", JNone) ∈ d → ¬ nonnull_screenshot (JDict d).
Proof.
  intros Hd Hin [v [Hget Hv]]%nonnull_screenshot_get; [| done].
  rewrite (dict_get_unique _ _ _ Hd Hin) in Hget. congruence.
Qed.

(** C1. The removal count of a root array is the number of its elements
    that are objects with a [screenshot] key whose value is not null; the
    count of a root object is 1 when it has a [screenshot] key with a
    non-null value and 0 otherwise; an object whose [screenshot] is
    already null is not one of those counted; and that count is the one a
    run reports on its second line. *)
Theorem removal_count_counts_nonnull_screenshots
    (L : Py.library) (data : json) :
  top_unique_keys data →
  (∀ items, data = JList items →
     (remove_screenshots data).2 = length (filter nonnull_screenshot items))
  ∧ (∀ d, data = JDict d →
       (remove_screenshots data).2
       = if decide (nonnull_screenshot data) then 1 else 0)
  ∧ (∀ d, data = JDict d ∨ (∃ items, data = JList items ∧ JDict d ∈ items) →
       ("screenshot", JNone) ∈ d → ¬ nonnull_screenshot (JDict d))
  ∧ (∀ w input_file output_file text,
       succeeds L w input_file (default input_file output_file) data text →
       Py.stdout (Py.remove_screenshots_from_json L input_file output_file w).2
       = Py.stdout w
         ++ [ "Successfully processed " +:+ input_file;
              "Removed " +:+ pretty (expected_count data)
                +:+ " screenshot entries";
              "Output written to " +:+ default input_file output_file ]).
Proof.
  intros Hkeys. pose proof (remove_screenshots_snd data Hkeys) as Hcount.
  split; [| split; [| split]].
  - intros items ->. exact Hcount.
  - intros d ->. exact Hcount.
  - intros d Hd Hnull. apply null_screenshot_not_counted; [| done].
    destruct Hd as [-> | [items [-> Hin]]]; [done |].
    simpl in Hkeys. rewrite Forall_forall in Hkeys. apply (Hkeys _ Hin).
  - intros w input_file output_file text Hrun.
    rewrite (run_succeeds L _ _ _ _ _ Hrun). simpl. by rewrite Hcount.
Qed.

Lemma removal_count_counts_nonnull_screenshots_witness :
  (remove_screenshots Sample.entries).2 = 1
  ∧ Py.stdout
      (Py.remove_screenshots_from_json Sample.lib
         "hitl/hitl-form-input.json" None Sample.start).2
    = [ "Successfully processed hitl/hitl-form-input.json";
        "Removed 1 screenshot entries";
        "Output written to hitl/hitl-form-input.json" ].
Proof.
  destruct (removal_count_counts_nonnull_screenshots Sample.lib Sample.entries)
    as [Harray [_ [_ Hreport]]].
  - apply (bool_decide_unpack _). vm_compute. exact I.
  - split.
    + apply (Harray _ eq_refl).
    + apply (Hreport Sample.start "hitl/hitl-form-input.json" None
               (Sample.render (remove_screenshots Sample.entries).1)).
      split; [eexists; split |..]; reflexivity.
Defined.

(** C2. The output document is the input document with the value of every
    top-level [screenshot] key (of the root object, or of each object
    element of a root array) replaced by null: the keys and their order
    are those of the input, every other entry keeps its value whole, so
    nothing nested is entered; and that document is the one a run
    encodes and writes. *)
Theorem output_is_input_with_top_screenshots_nulled
    (L : Py.library) (data : json) :
  top_unique_keys data →
  (remove_screenshots data).1 = null_top_screenshots data
  ∧ (∀ d, data = JDict d →
       ∃ d', (remove_screenshots data).1 = JDict d'
             ∧ d'.*1 = d.*1
             ∧ ∀ i k v, d !! i = Some (k, v) →
                 d' !! i
                 = Some (k, if decide (k = "screenshot") then JNone else v))
  ∧ (∀ w input_file output_file text,
       succeeds L w input_file (default input_file output_file) data text →
       Py.json_dumps L (null_top_screenshots data) = Py.Dumped text
       ∧ Py.fs (Py.remove_screenshots_from_json L input_file output_file w).2
         = <[Py.resolve L (default input_file output_file)
               := Py.TextFile text]> (Py.fs w)).
Proof.
  intros Hkeys. pose proof (remove_screenshots_fst data Hkeys) as Hout.
  split; [done | split].
  - intros d ->. exists (null_object d).
    split; [done | split; [apply null_object_keys |]].
    intros i k v Hi. unfold null_object. rewrite list_lookup_fmap, Hi. simpl.
    unfold null_entry; simpl. by case_decide.
  - intros w input_file output_file text Hrun.
    rewrite (run_succeeds L _ _ _ _ _ Hrun). simpl.
    destruct Hrun as [_ _ Hdump]. by rewrite Hout in Hdump.
Qed.

Lemma output_is_input_with_top_screenshots_nulled_witness :
  (remove_screenshots Sample.entry).1
  = JDict [("id", JInt 1); ("screenshot", JNone); ("note", JNone)]
  ∧ Py.fs
      (Py.remove_screenshots_from_json Sample.lib "entry.json"
         (Some "out.json") Sample.start).2 !! "out.json"
    = Some (Py.TextFile
              (Sample.render
                 (JDict [("id", JInt 1); ("screenshot", JNone);
                         ("note", JNone)]))).
Proof.
  destruct (output_is_input_with_top_screenshots_nulled Sample.lib Sample.entry)
    as [Hout [_ Hrun]].
  - apply (bool_decide_unpack _). vm_compute. exact I.
  - split; [exact Hout |].
    destruct (Hrun Sample.start "entry.json" (Some "out.json")
                (Sample.render (remove_screenshots Sample.entry).1))
      as [_ ->].
    + split; [eexists; split |..]; reflexivity.
    + apply lookup_insert_eq.
Defined.

(** An object without a [screenshot] key is left as it is. *)
Lemma strip_item_without_key (item : json) (c : nat) :
  ¬ has_screenshot_key item → strip_item item c = (item, c).
Proof.
  destruct item as [| | | | | |d]; simpl; try done.
  intros Hkey%dict_get_None. unfold strip_dict. by rewrite Hkey.
Qed.

Lemma strip_items_without_key (items : list json) (c : nat) :
  Forall (λ item, ¬ has_screenshot_key item) items →
  strip_items items c = (items, c).
Proof.
  induction 1 as [|item items Hitem _ IH]; simpl; [done |].
  by rewrite (strip_item_without_key _ _ Hitem), IH.
Qed.

(** C3, as the specification states it, fails: an array that mixes a
    number and an object is neither an object nor an array of objects,
    and the script nulls the object's [screenshot] and counts it. *)
Lemma mixed_array_is_not_passed_through :
  ¬ (∀ data : json,
       is_dict data = false → ¬ array_of_objects data →
       remove_screenshots data = (data, 0)).
Proof.
  intros Hclaim. specialize (Hclaim Sample.mixed_array eq_refl).
  assert (¬ array_of_objects Sample.mixed_array) as Hshape.
  { intros [items [Heq Hall]]. injection Heq as <-.
    apply Forall_cons in Hall as [Hint _]. discriminate Hint. }
  specialize (Hclaim Hshape). discriminate Hclaim.
Qed.

(** C3, amended. A document that is not an object and, when it is an
    array, has no object element with a [screenshot] key (a number, a
    string, a boolean, null, an array of non-object values) is left
    unchanged with a removal count of zero; a run on it raises nothing,
    writes the encoding of that same document and reports zero. *)
Theorem documents_without_screenshot_objects_pass_through
    (L : Py.library) (data : json) :
  is_dict data = false →
  (∀ items, data = JList items →
     Forall (λ item, ¬ has_screenshot_key item) items) →
  remove_screenshots data = (data, 0)
  ∧ (∀ w input_file output_file text,
       succeeds L w input_file (default input_file output_file) data text →
       Py.json_dumps L data = Py.Dumped text
       ∧ Py.remove_screenshots_from_json L input_file output_file w
         = (Py.Ok (),
            printed
              (written w (Py.resolve L (default input_file output_file)) text)
              (success_report input_file (default input_file output_file)
                 0))).
Proof.
  intros Hobj Harr.
  assert (remove_screenshots data = (data, 0)) as Hsame.
  { destruct data as [| | | | |items|d]; try done.
    unfold remove_screenshots.
    by rewrite (strip_items_without_key items 0 (Harr items eq_refl)). }
  split; [done |].
  intros w input_file output_file text Hrun.
  rewrite (run_succeeds L _ _ _ _ _ Hrun).
  destruct Hrun as [_ _ Hdump]. rewrite Hsame in Hdump. simpl in Hdump.
  by rewrite Hsame.
Qed.

Lemma documents_without_screenshot_objects_pass_through_witness :
  remove_screenshots Sample.scalars = (Sample.scalars, 0)
  ∧ Py.remove_screenshots_from_json Sample.lib "scalars.json" None
      Sample.start
    = (Py.Ok (),
       printed
         (written Sample.start "scalars.json" (Sample.render Sample.scalars))
         (success_report "scalars.json" "scalars.json" 0)).
Proof.
  destruct (documents_without_screenshot_objects_pass_through
              Sample.lib Sample.scalars) as [Hsame Hrun].
  - reflexivity.
  - intros items Heq. injection Heq as <-.
    repeat (apply Forall_cons; split; [by intros [] |]). by apply Forall_nil.
  - split; [exact Hsame |].
    apply (Hrun Sample.start "scalars.json" None
             (Sample.render Sample.scalars)).
    split; [eexists; split |..]; reflexivity.
Defined.

(** C4. The transformation is idempotent: applied to its own output it
    returns that output, with a removal count of zero. So a second run,
    on a file the first run wrote and that decodes to what was encoded,
    reports zero removals and writes the same text again. *)
Theorem remove_screenshots_idempotent (L : Py.library) (data : json) :
  remove_screenshots (remove_screenshots data).1
  = ((remove_screenshots data).1, 0)
  ∧ (∀ w input_file output_file text,
       succeeds L w input_file output_file data text →
       Py.json_loads L text = Py.Loaded (remove_screenshots data).1 →
       ∀ w', (Py.remove_screenshots_from_json L input_file (Some output_file)
                w).2 = w' →
         Py.remove_screenshots_from_json L output_file None w'
         = (Py.Ok (),
            printed w' (success_report output_file output_file 0))).
Proof.
  assert (remove_screenshots (remove_screenshots data).1
          = ((remove_screenshots data).1, 0)) as Hagain.
  { destruct data as [| | | | |items|d]; try done.
    - unfold remove_screenshots at 2 3.
      pose proof (strip_items_again items 0 0) as Hagain.
      destruct (strip_items items 0) as [items' c]; simpl in *.
      by rewrite Hagain.
    - unfold remove_screenshots at 2 3.
      pose proof (strip_dict_again d 0 0) as Hagain.
      destruct (strip_dict d 0) as [d' c]; simpl in *.
      by rewrite Hagain. }
  split; [done |].
  intros w input_file output_file text Hrun Hback w' Hfirst.
  rewrite (run_succeeds L input_file (Some output_file) w data text Hrun)
    in Hfirst.
  simpl in Hfirst. subst w'.
  destruct Hrun as [_ Hopen Hdump].
  rewrite (run_succeeds L output_file None _ (remove_screenshots data).1 text).
  - rewrite Hagain. simpl. unfold printed, written; simpl.
    by rewrite insert_insert_eq.
  - split; simpl.
    + exists text. by rewrite lookup_insert_eq.
    + done.
    + by rewrite Hagain.
Qed.

Lemma remove_screenshots_idempotent_witness :
  remove_screenshots Sample.cleaned = (Sample.cleaned, 0)
  ∧ Py.stdout
      (Py.remove_screenshots_from_json Sample.lib "clean.json" None
         (Py.remove_screenshots_from_json Sample.lib
            "hitl/hitl-form-input.json" (Some "clean.json")
            Sample.start).2).2
    = success_report "hitl/hitl-form-input.json" "clean.json" 1
      ++ success_report "clean.json" "clean.json" 0.
Proof.
  destruct (remove_screenshots_idempotent Sample.lib Sample.entries)
    as [Hagain Hsecond].
  split; [exact Hagain |].
  rewrite (Hsecond Sample.start "hitl/hitl-form-input.json" "clean.json"
             (Sample.render Sample.cleaned)
             ltac:(split; [eexists; split |..]; reflexivity)
             eq_refl _ eq_refl).
  reflexivity.
Defined.

(** C9. In a root array that mixes objects and other values, every
    object element has its top-level [screenshot] nulled and is counted
    when that value was not null, and every other element is passed
    through as it is, at its position. *)
Theorem mixed_array_is_processed_element_by_element (items : list json) :
  Forall element_unique_keys items →
  ∃ items',
    remove_screenshots (JList items)
    = (JList items', length (filter nonnull_screenshot items))
    ∧ length items' = length items
    ∧ ∀ i item, items !! i = Some item →
        (is_dict item = false → items' !! i = Some item)
        ∧ (∀ d, item = JDict d → items' !! i = Some (JDict (null_object d))).
Proof.
  intros Hkeys. exists (null_element <$> items).
  split; [| split].
  - pose proof (strip_items_fst items 0 Hkeys) as Hfst.
    pose proof (strip_items_snd items 0 Hkeys) as Hsnd.
    unfold remove_screenshots.
    destruct (strip_items items 0) as [items' c]; simpl in *. by subst.
  - apply length_fmap.
  - intros i item Hi. rewrite list_lookup_fmap, Hi. simpl. split.
    + by destruct item.
    + by intros d ->.
Qed.

Lemma mixed_array_is_processed_element_by_element_witness :
  ∃ items',
    remove_screenshots Sample.mixed_array = (JList items', 1)
    ∧ items' !! 0 = Some (JInt 1)
    ∧ items' !! 1 = Some (JDict [("screenshot", JNone)]).
Proof.
  destruct (mixed_array_is_processed_element_by_element
              [JInt 1; JDict [("screenshot", JStr "AAAA")]])
    as [items' [Hrun [_ Hat]]].
  - apply (bool_decide_unpack _). vm_compute. exact I.
  - exists items'. split; [exact Hrun | split].
    + by apply (proj1 (Hat 0 (JInt 1) eq_refl)).
    + by apply (proj2 (Hat 1 (JDict [("screenshot", JStr "AAAA")]) eq_refl)
                  [("screenshot", JStr "AAAA")]).
Defined.

(** C5. When the input file does not hold valid JSON, the run prints the
    "Invalid JSON" line with the decoder's diagnostic, exits with status
    1, and leaves every file as it was, the input file included when it
    is the output target: nothing is written before the document has
    been decoded. *)
Theorem invalid_json_is_reported_and_nothing_written
    (L : Py.library) (argv : list string) (w : Py.world)
    (input_file source msg : string) :
  argv !! 1 = Some input_file →
  Py.fs w !! Py.resolve L input_file = Some (Py.TextFile source) →
  Py.json_loads L source = Py.Malformed msg →
  Py.main L argv w
  = (Py.Raise (Py.SystemExit 1),
     printed w ["Error: Invalid JSON in " +:+ input_file +:+ ": " +:+ msg])
  ∧ Py.exit_status (Py.main L argv w).1 = 1%Z
  ∧ Py.fs (Py.main L argv w).2 = Py.fs w
  ∧ ∀ output_file,
      Py.remove_screenshots_from_json L input_file output_file w
      = (Py.Raise (Py.SystemExit 1),
         printed w
           ["Error: Invalid JSON in " +:+ input_file +:+ ": " +:+ msg]).
Proof.
  intros Harg Hin Hload.
  rewrite (main_input_exists L argv w input_file Harg) by (by rewrite Hin).
  rewrite (run_malformed L _ _ _ _ _ Hin Hload).
  repeat split. intros output_file. by apply run_malformed with source.
Qed.

Lemma invalid_json_is_reported_and_nothing_written_witness :
  Py.main Sample.lib ["remove_screenshot_data.py"; "broken.json"]
    Sample.start
  = (Py.Raise (Py.SystemExit 1),
     printed Sample.start
       ["Error: Invalid JSON in broken.json: Expecting property name enclosed in double quotes: line 1 column 2 (char 1)"]).
Proof.
  apply (invalid_json_is_reported_and_nothing_written Sample.lib
           ["remove_screenshot_data.py"; "broken.json"] Sample.start
           "broken.json" "{not valid json"
           "Expecting property name enclosed in double quotes: line 1 column 2 (char 1)");
    reflexivity.
Defined.

(** C6. When the input path does not exist, the command-line run prints
    the "does not exist" line naming the path, the function called on its
    own prints the "not found" line naming it, both end with exit status
    1, and no file is written or changed. *)
Theorem missing_input_is_reported_and_nothing_written
    (L : Py.library) (w : Py.world) (input_file : string) :
  Py.fs w !! Py.resolve L input_file = None →
  (∀ argv, argv !! 1 = Some input_file →
     Py.main L argv w
     = (Py.Raise (Py.SystemExit 1),
        printed w
          ["Error: Input file " +:+ input_file +:+ " does not exist"])
     ∧ Py.exit_status (Py.main L argv w).1 = 1%Z
     ∧ Py.fs (Py.main L argv w).2 = Py.fs w)
  ∧ (∀ output_file,
       Py.remove_screenshots_from_json L input_file output_file w
       = (Py.Raise (Py.SystemExit 1),
          printed w ["Error: File " +:+ input_file +:+ " not found"])
       ∧ Py.exit_status
           (Py.remove_screenshots_from_json L input_file output_file w).1
         = 1%Z
       ∧ Py.fs (Py.remove_screenshots_from_json L input_file output_file w).2
         = Py.fs w).
Proof.
  intros Hin. split.
  - intros argv Harg. by rewrite (main_input_missing L argv w _ Harg Hin).
  - intros output_file. by rewrite (run_input_missing L _ output_file w Hin).
Qed.

Lemma missing_input_is_reported_and_nothing_written_witness :
  Py.main Sample.lib ["remove_screenshot_data.py"; "nowhere.json"]
    Sample.start
  = (Py.Raise (Py.SystemExit 1),
     printed Sample.start ["Error: Input file nowhere.json does not exist"])
  ∧ Py.remove_screenshots_from_json Sample.lib "nowhere.json" None
      Sample.start
    = (Py.Raise (Py.SystemExit 1),
       printed Sample.start ["Error: File nowhere.json not found"]).
Proof.
  destruct (missing_input_is_reported_and_nothing_written Sample.lib
              Sample.start "nowhere.json") as [Hmain Hcall].
  - reflexivity.
  - split.
    + apply (Hmain ["remove_screenshot_data.py"; "nowhere.json"] eq_refl).
    + apply (Hcall None).
Defined.

(** C7, as the specification states it, fails: an output path can be
    another string than the input path and name the same file, and then
    the run overwrites the input file. *)
Lemma other_output_path_can_name_the_input_file :
  ¬ (∀ (L : Py.library) (argv : list string) (w : Py.world)
       (input_file output_file : string) (data : json) (text : string),
       argv !! 1 = Some input_file →
       argv !! 2 = Some output_file →
       output_file ≠ input_file →
       succeeds L w input_file output_file data text →
       Py.fs (Py.main L argv w).2 !! Py.resolve L input_file
       = Py.fs w !! Py.resolve L input_file).
Proof.
  intros Hclaim.
  specialize (Hclaim Sample.lib
                ["remove_screenshot_data.py"; "entry.json"; "./entry.json"]
                Sample.start "entry.json" "./entry.json" Sample.entry
                (Sample.render (remove_screenshots Sample.entry).1)
                eq_refl eq_refl).
  assert ("./entry.json" ≠ "entry.json") as Hne by discriminate.
  specialize (Hclaim Hne).
  assert (succeeds Sample.lib Sample.start "entry.json" "./entry.json"
            Sample.entry (Sample.render (remove_screenshots Sample.entry).1))
    as Hrun by (split; [eexists; split |..]; reflexivity).
  specialize (Hclaim Hrun). vm_compute in Hclaim. discriminate Hclaim.
Qed.

(** C7, amended. Without an output argument the transformed document is
    written to the input path; with an output argument that names
    another file than the input path it is written to that file, the
    input file keeps its content, and so does every other file. *)
Theorem output_defaults_to_input_path
    (L : Py.library) (argv : list string) (w : Py.world)
    (input_file : string) (data : json) (text : string) :
  argv !! 1 = Some input_file →
  (argv !! 2 = None →
   succeeds L w input_file input_file data text →
   Py.fs (Py.main L argv w).2
   = <[Py.resolve L input_file := Py.TextFile text]> (Py.fs w))
  ∧ (∀ output_file,
       argv !! 2 = Some output_file →
       Py.resolve L output_file ≠ Py.resolve L input_file →
       succeeds L w input_file output_file data text →
       Py.fs (Py.main L argv w).2
       = <[Py.resolve L output_file := Py.TextFile text]> (Py.fs w)
       ∧ Py.fs (Py.main L argv w).2 !! Py.resolve L input_file
         = Py.fs w !! Py.resolve L input_file
       ∧ ∀ file, file ≠ Py.resolve L output_file →
           Py.fs (Py.main L argv w).2 !! file = Py.fs w !! file).
Proof.
  intros Harg. split.
  - intros Hout Hrun.
    pose proof Hrun as [[source [Hin _]] _ _].
    rewrite (main_input_exists L argv w input_file Harg) by (by rewrite Hin).
    rewrite Hout. by rewrite (run_succeeds L input_file None w data text).
  - intros output_file Hout Hne Hrun.
    pose proof Hrun as [[source [Hin _]] _ _].
    rewrite (main_input_exists L argv w input_file Harg) by (by rewrite Hin).
    rewrite Hout.
    rewrite (run_succeeds L input_file (Some output_file) w data text)
      by done.
    simpl. split; [done | split].
    + by rewrite lookup_insert_ne.
    + intros file Hfile. by rewrite lookup_insert_ne.
Qed.

Lemma output_defaults_to_input_path_witness :
  Py.fs
    (Py.main Sample.lib
       ["remove_screenshot_data.py"; "hitl/hitl-form-input.json"]
       Sample.start).2
  = <["hitl/hitl-form-input.json" :=
        Py.TextFile
          (Sample.render (remove_screenshots Sample.entries).1)]>
      Sample.files
  ∧ Py.fs
      (Py.main Sample.lib
         ["remove_screenshot_data.py"; "hitl/hitl-form-input.json";
          "clean.json"]
         Sample.start).2 !! "hitl/hitl-form-input.json"
    = Some (Py.TextFile (Sample.render Sample.entries)).
Proof.
  split.
  - destruct (output_defaults_to_input_path Sample.lib
             ["remove_screenshot_data.py"; "hitl/hitl-form-input.json"]
             Sample.start "hitl/hitl-form-input.json" Sample.entries
             (Sample.render (remove_screenshots Sample.entries).1) eq_refl)
      as [Homitted _].
    apply Homitted; [reflexivity |].
    split; [eexists; split |..]; reflexivity.
  - destruct (output_defaults_to_input_path Sample.lib
             ["remove_screenshot_data.py"; "hitl/hitl-form-input.json";
              "clean.json"]
             Sample.start "hitl/hitl-form-input.json" Sample.entries
             (Sample.render (remove_screenshots Sample.entries).1) eq_refl)
      as [_ Hgiven].
    destruct (Hgiven "clean.json" eq_refl) as [_ [Hkept _]].
    + intros Hsame. vm_compute in Hsame. discriminate Hsame.
    + split; [eexists; split |..]; reflexivity.
    + exact Hkept.
Defined.

(** Every command-line run is of exactly one of two kinds: it fails in
    one of the listed ways and exits with 1, or every step goes through
    and it exits with 0. *)
Lemma main_fails_or_succeeds (L : Py.library) (argv : list string)
    (w : Py.world) :
  (failure L argv w ∧ Py.exit_status (Py.main L argv w).1 = 1%Z)
  ∨ ((∃ input_file output_file data text,
        argv !! 1 = Some input_file
        ∧ output_path argv = Some output_file
        ∧ succeeds L w input_file output_file data text)
     ∧ Py.exit_status (Py.main L argv w).1 = 0%Z).
Proof.
  destruct (decide (length argv < 2)) as [Hshort | Hlong].
  { left. split; [by apply MissingArgument |].
    by rewrite main_missing_argument. }
  destruct (lookup_lt_is_Some_2 argv 1) as [input_file Harg]; [lia |].
  pose proof (output_path_default argv input_file Harg) as Hpath.
  destruct (Py.fs w !! Py.resolve L input_file)
    as [[source | err] |] eqn:Hin.
  - rewrite (main_input_exists L argv w input_file Harg) by (by rewrite Hin).
    destruct (Py.json_loads L source) as [data | msg | msg] eqn:Hload.
    + destruct (Py.open_w L (default input_file (argv !! 2)))
        as [e |] eqn:Hopen.
      { left. split.
        - eapply ProcessingException; [done.. |]. by eapply OpenFails.
        - by rewrite (run_open_failed L _ _ _ _ _ _ Hin Hload Hopen). }
      destruct (Py.json_dumps L (remove_screenshots data).1)
        as [text | partial msg] eqn:Hdump.
      * right.
        assert (succeeds L w input_file (default input_file (argv !! 2))
                  data text) as Hrun by (split; eauto).
        split; [by eauto 10 |]. by rewrite (run_succeeds L _ _ _ _ _ Hrun).
      * left. split.
        -- eapply ProcessingException; [done.. |]. by eapply DumpFails.
        -- by rewrite (run_dump_failed L _ _ _ _ _ _ _ Hin Hload Hopen Hdump).
    + left. split; [by eapply InvalidJSON |].
      by rewrite (run_malformed L _ _ _ _ _ Hin Hload).
    + left. split.
      * eapply ProcessingException; [done.. |]. by eapply LoadFails.
      * by rewrite (run_load_failed L _ _ _ _ _ Hin Hload).
  - left. split.
    + eapply ProcessingException; [done.. |]. by eapply ReadFails.
    + rewrite (main_input_exists L argv w input_file Harg)
        by (by rewrite Hin).
      by rewrite (run_unreadable L _ _ _ _ Hin).
  - left. split; [by eapply InputMissing |].
    by rewrite (main_input_missing L argv w _ Harg Hin).
Qed.

(** The two kinds exclude each other. *)
Lemma failure_excludes_success (L : Py.library) (argv : list string)
    (w : Py.world) input_file output_file data text :
  failure L argv w →
  argv !! 1 = Some input_file →
  output_path argv = Some output_file →
  succeeds L w input_file output_file data text →
  False.
Proof.
  intros Hfail Harg Hpath [[source [Hin Hload]] Hopen Hdump].
  destruct Hfail
    as [Hshort | input' Harg' Hnone | input' source' msg Harg' Hin' Hload'
       | input' output' Harg' Hpath' Hexn].
  - apply lookup_lt_Some in Harg. lia.
  - congruence.
  - congruence.
  - assert (input' = input_file) as -> by congruence.
    assert (output' = output_file) as -> by congruence.
    destruct Hexn; congruence.
Qed.

(** C8. A command-line run exits with status 0 or 1: with 0 exactly when
    every step goes through, whatever the removal count, and with 1
    exactly when the input-file argument is missing, the input file is
    missing, the JSON is invalid, or another exception occurs while
    processing. *)
Theorem exit_status_zero_on_success_one_on_failure
    (L : Py.library) (argv : list string) (w : Py.world) :
  (Py.exit_status (Py.main L argv w).1 = 0%Z
   ∨ Py.exit_status (Py.main L argv w).1 = 1%Z)
  ∧ (Py.exit_status (Py.main L argv w).1 = 0%Z
     ↔ ∃ input_file output_file data text,
         argv !! 1 = Some input_file
         ∧ output_path argv = Some output_file
         ∧ succeeds L w input_file output_file data text)
  ∧ (Py.exit_status (Py.main L argv w).1 = 1%Z ↔ failure L argv w).
Proof.
  destruct (main_fails_or_succeeds L argv w) as [[Hfail Hone] | [Hrun Hzero]].
  - rewrite Hone. split; [by right | split]; split; try done.
    intros (input_file & output_file & data & text & Harg & Hpath & Hrun).
    by destruct (failure_excludes_success L argv w _ _ _ _
                   Hfail Harg Hpath Hrun).
  - rewrite Hzero. split; [by left | split]; split; try done.
    intros Hfail.
    destruct Hrun as (input_file & output_file & data & text
                      & Harg & Hpath & Hrun).
    by destruct (failure_excludes_success L argv w _ _ _ _
                   Hfail Harg Hpath Hrun).
Qed.

(** C10. A run is determined by the decoded document and the paths: two
    runs with the same arguments whose input files decode to the same
    document, whatever else the two worlds hold and whatever the two
    texts are, end the same way, print the same lines (the same removal
    count among them) and make the same change to the files. *)
Theorem run_depends_only_on_document_and_paths
    (L : Py.library) (argv : list string) (w1 w2 : Py.world)
    (input_file source1 source2 : string) (data : json) :
  argv !! 1 = Some input_file →
  Py.fs w1 !! Py.resolve L input_file = Some (Py.TextFile source1) →
  Py.json_loads L source1 = Py.Loaded data →
  Py.fs w2 !! Py.resolve L input_file = Some (Py.TextFile source2) →
  Py.json_loads L source2 = Py.Loaded data →
  ∃ (r : Py.result ()) (change : option (string * string))
    (lines : list string),
    Py.main L argv w1 = (r, printed (changed change w1) lines)
    ∧ Py.main L argv w2 = (r, printed (changed change w2) lines).
Proof.
  intros Harg Hin1 Hload1 Hin2 Hload2.
  rewrite !(main_input_exists L argv _ input_file Harg)
    by (by rewrite ?Hin1, ?Hin2).
  destruct (Py.open_w L (default input_file (argv !! 2))) as [e |] eqn:Hopen.
  { eexists _, None, _. split.
    - by apply (run_open_failed L _ _ _ _ _ _ Hin1 Hload1 Hopen).
    - by apply (run_open_failed L _ _ _ _ _ _ Hin2 Hload2 Hopen). }
  destruct (Py.json_dumps L (remove_screenshots data).1)
    as [text | partial msg] eqn:Hdump.
  - exists (Py.Ok ()),
      (Some (Py.resolve L (default input_file (argv !! 2)), text)).
    eexists. split; apply run_succeeds; split; eauto.
  - eexists _,
      (Some (Py.resolve L (default input_file (argv !! 2)), partial)), _.
    split.
    + by apply (run_dump_failed L _ _ _ _ _ _ _ Hin1 Hload1 Hopen Hdump).
    + by apply (run_dump_failed L _ _ _ _ _ _ _ Hin2 Hload2 Hopen Hdump).
Qed.

Lemma run_depends_only_on_document_and_paths_witness :
  ∃ (r : Py.result ()) (change : option (string * string))
    (lines : list string),
    Py.main Sample.lib ["remove_screenshot_data.py"; "numbers.json"]
      Sample.start
    = (r, printed (changed change Sample.start) lines)
    ∧ Py.main Sample.lib ["remove_screenshot_data.py"; "numbers.json"]
        Sample.elsewhere
      = (r, printed (changed change Sample.elsewhere) lines).
Proof.
  apply (run_depends_only_on_document_and_paths Sample.lib
           ["remove_screenshot_data.py"; "numbers.json"]
           Sample.start Sample.elsewhere "numbers.json" "[1, 2]" "[1,2]"
           Sample.numbers);
    reflexivity.
Defined.

(** * Further properties of the script *)

(** ** The transformation *)

Lemma dict_set_same (k : string) (v : json) (d : dict) :
  dict_get k d = Some v → dict_set k v d = d.
Proof.
  induction d as [|[k' v'] d IH]; simpl; [done |].
  case_decide; subst.
  - intros Hv. by injection Hv as ->.
  - intros Hv. by rewrite IH.
Qed.

(** One object: the counter moves by at most one, and stays exactly when
    the object is left as it was. *)
Lemma strip_dict_counter (d : dict) (c : nat) :
  c ≤ (strip_dict d c).2 ≤ S c
  ∧ ((strip_dict d c).2 = c ↔ (strip_dict d c).1 = d).
Proof.
  unfold strip_dict.
  destruct (dict_get "screenshot" d) as [v|] eqn:Hget; simpl;
    [| split; [lia | done]].
  destruct (is_none v) eqn:Hv.
  - destruct v; try discriminate Hv.
    split; [lia |]. by rewrite (dict_set_same _ _ _ Hget).
  - split; [lia |]. split; [lia |].
    intros Hsame. pose proof (dict_get_set "screenshot" JNone d) as Hnull.
    rewrite Hsame, Hget in Hnull. injection Hnull as ->. discriminate Hv.
Qed.

Lemma strip_item_counter (item : json) (c : nat) :
  c ≤ (strip_item item c).2 ≤ S c
  ∧ ((strip_item item c).2 = c ↔ (strip_item item c).1 = item).
Proof.
  destruct item as [| | | | | |d]; simpl; try (split; [lia | done]).
  pose proof (strip_dict_counter d c) as [Hle Hiff].
  destruct (strip_dict d c) as [d' c']; simpl in *.
  split; [done |]. rewrite Hiff. split; [by intros -> | by intros [= ->]].
Qed.

Lemma strip_items_counter (items : list json) (c : nat) :
  c ≤ (strip_items items c).2 ≤ c + length items
  ∧ ((strip_items items c).2 = c ↔ (strip_items items c).1 = items).
Proof.
  revert c. induction items as [|item items IH]; intros c; simpl.
  { split; [lia | done]. }
  pose proof (strip_item_counter item c) as [Hle Hiff].
  destruct (strip_item item c) as [item' c1]; simpl in *.
  specialize (IH c1) as [Hle' Hiff'].
  destruct (strip_items items c1) as [rest' c2]; simpl in *.
  split; [lia |]. split.
  - intros ->. assert (c1 = c) as -> by lia.
    f_equal; [by apply Hiff | by apply Hiff'].
  - intros [= Hitem Hrest]. apply Hiff in Hitem as ->. by apply Hiff'.
Qed.

(** X1. The removal count is at most the number of elements of a root
    array, at most 1 for a root object and 0 for anything else, and it is
    zero exactly when the transformation left the document as it was: a
    reported 0 means nothing was changed, a positive count that something
    was. *)
Theorem count_is_zero_iff_document_unchanged (data : json) :
  ((remove_screenshots data).2 = 0 ↔ (remove_screenshots data).1 = data)
  ∧ (remove_screenshots data).2
    ≤ match data with
      | JList items => length items
      | JDict _ => 1
      | _ => 0
      end.
Proof.
  destruct data as [| | | | |items|d]; simpl; try done.
  - pose proof (strip_items_counter items 0) as [Hle Hiff].
    destruct (strip_items items 0) as [items' c]; simpl in *.
    split; [| lia].
    rewrite Hiff. split; [by intros -> | by intros [= ->]].
  - pose proof (strip_dict_counter d 0) as [Hle Hiff].
    destruct (strip_dict d 0) as [d' c]; simpl in *.
    split; [| lia].
    rewrite Hiff. split; [by intros -> | by intros [= ->]].
Qed.

Lemma null_object_clean (d : dict) :
  ¬ Exists nonnull_screenshot_entry (null_object d).
Proof.
  unfold null_object. rewrite Exists_fmap, Exists_exists.
  intros [[k v] [_ [Hk Hv]]]. unfold null_entry in *; simpl in *.
  case_decide; simpl in *; [done | congruence].
Qed.

Lemma null_element_clean (item : json) :
  ¬ nonnull_screenshot (null_element item).
Proof. destruct item; simpl; try tauto. apply null_object_clean. Qed.

Lemma filter_nonnull_screenshot_nil (items : list json) :
  Forall (λ item, ¬ nonnull_screenshot item) items →
  filter nonnull_screenshot items = [].
Proof.
  induction 1 as [|item items Hitem _ IH]; [done |].
  by rewrite filter_cons_False.
Qed.

(** X2. What the transformation hands to the encoder holds no top-level
    [screenshot] with a non-null value any more (none in the root object,
    none in any object element of a root array), its objects still have
    no repeated key, and a root array has as many elements as before. *)
Theorem output_has_no_nonnull_screenshot (data : json) :
  top_unique_keys data →
  top_unique_keys (remove_screenshots data).1
  ∧ ¬ nonnull_screenshot (remove_screenshots data).1
  ∧ expected_count (remove_screenshots data).1 = 0
  ∧ (∀ items, data = JList items →
       ∃ items', (remove_screenshots data).1 = JList items'
                 ∧ length items' = length items
                 ∧ Forall (λ item, ¬ nonnull_screenshot item) items').
Proof.
  intros Hkeys. rewrite (remove_screenshots_fst data Hkeys).
  destruct data as [| | | | |items|d]; simpl in *;
    try (split; [done | split; [tauto | split; [done | by intros ? [=]]]]).
  - assert (Forall (λ item, ¬ nonnull_screenshot item) (null_element <$> items))
      as Hclean.
    { apply Forall_fmap, Forall_forall. intros item _. apply null_element_clean. }
    split; [| split; [tauto | split]].
    + apply Forall_fmap. eapply Forall_impl; [exact Hkeys |].
      intros [| | | | | |d] Hd; simpl in *; try done.
      unfold unique_keys. by rewrite null_object_keys.
    + by rewrite (filter_nonnull_screenshot_nil _ Hclean).
    + intros ? [= <-]. eexists. split; [done |]. by rewrite length_fmap.
  - split; [| split; [apply null_object_clean | split]].
    + unfold unique_keys. by rewrite null_object_keys.
    + rewrite decide_False; [done | apply null_object_clean].
    + done.
Qed.

Lemma output_has_no_nonnull_screenshot_witness :
  ¬ nonnull_screenshot (remove_screenshots Sample.entry).1
  ∧ expected_count (remove_screenshots Sample.entries).1 = 0.
Proof.
  split.
  - apply (output_has_no_nonnull_screenshot Sample.entry).
    apply (bool_decide_unpack _). vm_compute. exact I.
  - apply (output_has_no_nonnull_screenshot Sample.entries).
    apply (bool_decide_unpack _). vm_compute. exact I.
Defined.

(** ** Arrays, piece by piece *)

(** The counter a loop starts from only shifts the count it ends with. *)
Lemma strip_dict_shift (d : dict) (c : nat) :
  strip_dict d c = ((strip_dict d 0).1, c + (strip_dict d 0).2).
Proof.
  unfold strip_dict. destruct (dict_get "screenshot" d) as [v|]; simpl.
  - destruct (is_none v); f_equal; lia.
  - f_equal; lia.
Qed.

Lemma strip_item_shift (item : json) (c : nat) :
  strip_item item c = ((strip_item item 0).1, c + (strip_item item 0).2).
Proof.
  destruct item as [| | | | | |d]; simpl; try (f_equal; lia).
  rewrite (strip_dict_shift d c).
  destruct (strip_dict d 0) as [d' n]; simpl. done.
Qed.

Lemma strip_items_shift (items : list json) (c : nat) :
  strip_items items c
  = ((strip_items items 0).1, c + (strip_items items 0).2).
Proof.
  revert c. induction items as [|item items IH]; intros c; simpl.
  { f_equal; lia. }
  rewrite (strip_item_shift item c).
  destruct (strip_item item 0) as [item' n]; simpl.
  rewrite (IH (c + n)), (IH n).
  destruct (strip_items items 0) as [rest' m]; simpl.
  f_equal; lia.
Qed.

Lemma strip_items_app (items1 items2 : list json) (c : nat) :
  strip_items (items1 ++ items2) c
  = ((strip_items items1 c).1
       ++ (strip_items items2 (strip_items items1 c).2).1,
     (strip_items items2 (strip_items items1 c).2).2).
Proof.
  revert c. induction items1 as [|item items1 IH]; intros c; simpl.
  { by destruct (strip_items items2 c). }
  destruct (strip_item item c) as [item' c1]; simpl.
  rewrite (IH c1).
  destruct (strip_items items1 c1) as [rest' c2]; simpl. done.
Qed.

(** X3. Elements are handled independently of one another: the result
    for an array made of two pieces is the two results put together, the
    outputs one after the other and the counts added. *)
Theorem array_is_processed_piecewise (items1 items2 : list json) :
  ∃ out1 out2 count1 count2,
    remove_screenshots (JList items1) = (JList out1, count1)
    ∧ remove_screenshots (JList items2) = (JList out2, count2)
    ∧ remove_screenshots (JList (items1 ++ items2))
      = (JList (out1 ++ out2), count1 + count2).
Proof.
  exists (strip_items items1 0).1, (strip_items items2 0).1,
         (strip_items items1 0).2, (strip_items items2 0).2.
  unfold remove_screenshots.
  rewrite strip_items_app.
  rewrite (strip_items_shift items2 (strip_items items1 0).2).
  destruct (strip_items items1 0) as [out1 count1].
  destruct (strip_items items2 0) as [out2 count2]. done.
Qed.

(** ** Runs *)

(** Every command-line run, whatever happens: it ends with [r], prints
    [lines] after what was printed before, and changes the files by
    [change], which is nothing or a text put in the output file. It
    returns after three lines and a write, or exits with 1 after one or
    two lines. *)
Lemma main_outcome (L : Py.library) (argv : list string) (w : Py.world) :
  ∃ (r : Py.result ()) (change : option (string * string))
    (lines : list string),
    Py.main L argv w = (r, printed (changed change w) lines)
    ∧ match change with
      | Some (file, _) => Py.resolve L <$> output_path argv = Some file
      | None => True
      end
    ∧ ((r = Py.Ok () ∧ length lines = 3 ∧ is_Some change)
       ∨ (r = Py.Raise (Py.SystemExit 1) ∧ 1 ≤ length lines ≤ 2)).
Proof.
  destruct (decide (length argv < 2)) as [Hshort | Hlong].
  { eexists _, None, _. split; [by apply main_missing_argument |].
    split; [done | right]. simpl. split; [done | lia]. }
  destruct (lookup_lt_is_Some_2 argv 1) as [input_file Harg]; [lia |].
  pose proof (output_path_default argv input_file Harg) as Hpath.
  destruct (Py.fs w !! Py.resolve L input_file)
    as [[source | err] |] eqn:Hin.
  - rewrite (main_input_exists L argv w input_file Harg) by (by rewrite Hin).
    destruct (Py.json_loads L source) as [data | msg | msg] eqn:Hload.
    + destruct (Py.open_w L (default input_file (argv !! 2)))
        as [e |] eqn:Hopen.
      { eexists _, None, _.
        split; [by apply (run_open_failed L _ _ _ _ _ _ Hin Hload Hopen) |].
        split; [done | right]. simpl. split; [done | lia]. }
      destruct (Py.json_dumps L (remove_screenshots data).1)
        as [text | partial msg] eqn:Hdump.
      * eexists _,
          (Some (Py.resolve L (default input_file (argv !! 2)), text)), _.
        split; [apply (run_succeeds L _ _ _ data text); split; eauto |].
        split; [by rewrite Hpath | left]. by eauto.
      * eexists _,
          (Some (Py.resolve L (default input_file (argv !! 2)), partial)), _.
        split;
          [by apply (run_dump_failed L _ _ _ _ _ _ _ Hin Hload Hopen Hdump) |].
        split; [by rewrite Hpath | right]. simpl. split; [done | lia].
    + eexists _, None, _.
      split; [by apply (run_malformed L _ _ _ _ _ Hin Hload) |].
      split; [done | right]. simpl. split; [done | lia].
    + eexists _, None, _.
      split; [by apply (run_load_failed L _ _ _ _ _ Hin Hload) |].
      split; [done | right]. simpl. split; [done | lia].
  - rewrite (main_input_exists L argv w input_file Harg) by (by rewrite Hin).
    eexists _, None, _.
    split; [by apply (run_unreadable L _ _ _ _ Hin) |].
    split; [done | right]. simpl. split; [done | lia].
  - eexists _, None, _.
    split; [by apply (main_input_missing L argv w _ Harg Hin) |].
    split; [done | right]. simpl. split; [done | lia].
Qed.

(** X4. No run is silent and none rewrites the terminal: every
    command-line run keeps the lines printed before it and adds one to
    three lines, three exactly when it exits with status 0 and at most
    two when it exits with status 1. *)
Theorem every_run_prints_one_to_three_lines
    (L : Py.library) (argv : list string) (w : Py.world) :
  ∃ lines,
    Py.stdout (Py.main L argv w).2 = Py.stdout w ++ lines
    ∧ 1 ≤ length lines ≤ 3
    ∧ (Py.exit_status (Py.main L argv w).1 = 0%Z ↔ length lines = 3)
    ∧ (Py.exit_status (Py.main L argv w).1 = 1%Z ↔ length lines ≤ 2).
Proof.
  destruct (main_outcome L argv w)
    as (r & change & lines & -> & _ & [(-> & Hlen & _) | (-> & Hlen)]);
    exists lines; simpl.
  - split; [by destruct change as [[? ?]|] |].
    split; [lia |]. split; split; (done || lia).
  - split; [by destruct change as [[? ?]|] |].
    split; [lia |]. split; split; (done || lia).
Qed.

(** X5. A run touches one file at most. After any command-line run, the
    files are as before or differ by one text put in the file that the
    output path ([sys.argv[2]], else [sys.argv[1]]) names; every other
    file holds what it held, no file that existed is gone, and a run
    that exits with status 0 did write. *)
Theorem run_changes_at_most_the_output_file
    (L : Py.library) (argv : list string) (w : Py.world) :
  (Py.fs (Py.main L argv w).2 = Py.fs w
   ∨ ∃ output_file text,
       output_path argv = Some output_file
       ∧ Py.fs (Py.main L argv w).2
         = <[Py.resolve L output_file := Py.TextFile text]> (Py.fs w))
  ∧ (∀ file, Py.resolve L <$> output_path argv ≠ Some file →
       Py.fs (Py.main L argv w).2 !! file = Py.fs w !! file)
  ∧ (∀ file, is_Some (Py.fs w !! file) →
       is_Some (Py.fs (Py.main L argv w).2 !! file))
  ∧ (Py.exit_status (Py.main L argv w).1 = 0%Z →
     ∃ output_file text,
       output_path argv = Some output_file
       ∧ Py.fs (Py.main L argv w).2 !! Py.resolve L output_file
         = Some (Py.TextFile text)).
Proof.
  destruct (main_outcome L argv w)
    as (r & change & lines & -> & Hpath & Hr); simpl.
  destruct change as [[file text] |]; simpl in *.
  - destruct (output_path argv) as [output_file |] eqn:Hout;
      simpl in Hpath; [| discriminate Hpath].
    injection Hpath as <-.
    split; [right; by eauto |]. split; [| split].
    + intros file Hne. apply lookup_insert_ne.
      intros <-. by apply Hne.
    + intros file Hsome.
      destruct (decide (Py.resolve L output_file = file)) as [-> | Hne].
      * rewrite lookup_insert_eq. by eauto.
      * by rewrite lookup_insert_ne.
    + intros _. exists output_file, text. by rewrite lookup_insert_eq.
  - split; [by left |]. split; [done | split; [done |]].
    destruct Hr as [(_ & _ & [? [=]]) | (-> & _)]. discriminate.
Qed.

Lemma run_changes_at_most_the_output_file_witness :
  (∃ text,
     Py.fs
       (Py.main Sample.lib
          ["remove_screenshot_data.py"; "entry.json"; "./entry.json"]
          Sample.start).2 !! "entry.json"
     = Some (Py.TextFile text))
  ∧ Py.fs
      (Py.main Sample.lib
         ["remove_screenshot_data.py"; "entry.json"; "./entry.json"]
         Sample.start).2 !! "numbers.json"
    = Some (Py.TextFile "[1, 2]").
Proof.
  destruct (run_changes_at_most_the_output_file Sample.lib
              ["remove_screenshot_data.py"; "entry.json"; "./entry.json"]
              Sample.start) as (_ & Hother & _ & Hdone).
  split.
  - destruct (Hdone eq_refl) as (output_file & text & Hout & Hfile).
    injection Hout as <-. exists text. exact Hfile.
  - rewrite (Hother "numbers.json"); [reflexivity |].
    intros Hsame. vm_compute in Hsame. discriminate Hsame.
Defined.

(** The function reads its optional argument through its default only. *)
Lemma run_default_output (L : Py.library) (input_file : string)
    (output_file : option string) (w : Py.world) :
  Py.remove_screenshots_from_json L input_file output_file w
  = Py.remove_screenshots_from_json L input_file
      (Some (default input_file output_file)) w.
Proof. by destruct output_file. Qed.

(** X6. When the input decodes but [open(output_file, "w")] raises
    [FileNotFoundError] (the directory of the output path is missing),
    the clause of line 55 catches it: the run prints the "not found" line
    with the name of the input file, which exists, exits with status 1
    and changes no file. *)
Theorem missing_output_directory_is_reported_as_missing_input
    (L : Py.library) (argv : list string) (w : Py.world)
    (input_file output_file source : string) (data : json) :
  argv !! 1 = Some input_file →
  output_path argv = Some output_file →
  Py.fs w !! Py.resolve L input_file = Some (Py.TextFile source) →
  Py.json_loads L source = Py.Loaded data →
  Py.open_w L output_file = Some Py.ENOENT →
  Py.main L argv w
  = (Py.Raise (Py.SystemExit 1),
     printed w ["Error: File " +:+ input_file +:+ " not found"])
  ∧ Py.remove_screenshots_from_json L input_file (Some output_file) w
    = (Py.Raise (Py.SystemExit 1),
       printed w ["Error: File " +:+ input_file +:+ " not found"]).
Proof.
  intros Harg Hpath Hin Hload Hopen.
  rewrite (output_path_default argv input_file Harg) in Hpath.
  injection Hpath as Hpath.
  rewrite (main_input_exists L argv w input_file Harg) by (by rewrite Hin).
  rewrite (run_default_output L input_file (argv !! 2)), Hpath.
  split;
    by apply (run_open_failed L input_file (Some output_file) w source data
                Py.ENOENT Hin Hload Hopen).
Qed.

Lemma missing_output_directory_is_reported_as_missing_input_witness :
  Py.main Sample.lib
    ["remove_screenshot_data.py"; "entry.json"; "missing/out.json"]
    Sample.start
  = (Py.Raise (Py.SystemExit 1),
     printed Sample.start ["Error: File entry.json not found"]).
Proof.
  apply (missing_output_directory_is_reported_as_missing_input Sample.lib
           ["remove_screenshot_data.py"; "entry.json"; "missing/out.json"]
           Sample.start "entry.json" "missing/out.json"
           (Sample.render Sample.entry) Sample.entry);
    reflexivity.
Defined.

(** X7. A failure while encoding is not undone. When [json.dump] raises
    after [partial] reached the file, the output path is left holding
    [partial] alone, the run prints the "Error processing file" line with
    the exception's message and exits with status 1; without an output
    argument that path is the input file, whose document is lost. *)
Theorem encoder_failure_leaves_partial_output
    (L : Py.library) (argv : list string) (w : Py.world)
    (input_file output_file source partial msg : string) (data : json) :
  argv !! 1 = Some input_file →
  output_path argv = Some output_file →
  Py.fs w !! Py.resolve L input_file = Some (Py.TextFile source) →
  Py.json_loads L source = Py.Loaded data →
  Py.open_w L output_file = None →
  Py.json_dumps L (remove_screenshots data).1 = Py.DumpFailed partial msg →
  Py.main L argv w
  = (Py.Raise (Py.SystemExit 1),
     printed (written w (Py.resolve L output_file) partial)
       ["Error processing file: " +:+ msg])
  ∧ Py.fs (Py.main L argv w).2 !! Py.resolve L output_file
    = Some (Py.TextFile partial)
  ∧ (argv !! 2 = None →
     Py.fs (Py.main L argv w).2 !! Py.resolve L input_file
     = Some (Py.TextFile partial)).
Proof.
  intros Harg Hpath Hin Hload Hopen Hdump.
  pose proof Hpath as Hout.
  rewrite (output_path_default argv input_file Harg) in Hout.
  injection Hout as Hout.
  rewrite (main_input_exists L argv w input_file Harg) by (by rewrite Hin).
  rewrite (run_default_output L input_file (argv !! 2)), Hout.
  rewrite (run_dump_failed L input_file (Some output_file) w source data
             partial msg Hin Hload Hopen Hdump).
  simpl.
  split; [done | split].
  - apply lookup_insert_eq.
  - intros Hnone. rewrite Hnone in Hout. simpl in Hout. subst output_file.
    apply lookup_insert_eq.
Qed.

Lemma encoder_failure_leaves_partial_output_witness :
  Py.fs
    (Py.main FullDisk.lib
       ["remove_screenshot_data.py"; "hitl/hitl-form-input.json"]
       Sample.start).2 !! "hitl/hitl-form-input.json"
  = Some (Py.TextFile "[").
Proof.
  apply (encoder_failure_leaves_partial_output FullDisk.lib
           ["remove_screenshot_data.py"; "hitl/hitl-form-input.json"]
           Sample.start "hitl/hitl-form-input.json"
           "hitl/hitl-form-input.json" (Sample.render Sample.entries) "["
           "[Errno 28] No space left on device" Sample.entries);
    reflexivity.
Defined.

(** X8. The catch-all clause of line 61. When reading the input raises
    something other than [FileNotFoundError], when decoding raises
    something other than [JSONDecodeError], or when opening the output
    raises something other than [FileNotFoundError], the run prints
    "Error processing file: " followed by the exception's message, exits
    with status 1 and changes no file. *)
Theorem other_exception_is_reported_and_nothing_written
    (L : Py.library) (argv : list string) (w : Py.world)
    (input_file output_file msg : string) :
  argv !! 1 = Some input_file →
  output_path argv = Some output_file →
  Py.fs w !! Py.resolve L input_file = Some (Py.Unreadable msg)
  ∨ (∃ source,
       Py.fs w !! Py.resolve L input_file = Some (Py.TextFile source)
       ∧ Py.json_loads L source = Py.LoadFailed msg)
  ∨ (∃ source data,
       Py.fs w !! Py.resolve L input_file = Some (Py.TextFile source)
       ∧ Py.json_loads L source = Py.Loaded data
       ∧ Py.open_w L output_file = Some (Py.EOther msg)) →
  Py.main L argv w
  = (Py.Raise (Py.SystemExit 1),
     printed w ["Error processing file: " +:+ msg])
  ∧ Py.exit_status (Py.main L argv w).1 = 1%Z
  ∧ Py.fs (Py.main L argv w).2 = Py.fs w.
Proof.
  intros Harg Hpath Hexn.
  rewrite (output_path_default argv input_file Harg) in Hpath.
  injection Hpath as Hpath.
  assert (Py.main L argv w
          = (Py.Raise (Py.SystemExit 1),
             printed w ["Error processing file: " +:+ msg])) as ->.
  { destruct Hexn as [Hin | [(source & Hin & Hload)
                            | (source & data & Hin & Hload & Hopen)]];
      rewrite (main_input_exists L argv w input_file Harg)
        by (by rewrite Hin).
    - by apply run_unreadable.
    - by apply run_load_failed with source.
    - rewrite (run_default_output L input_file (argv !! 2)), Hpath.
      by apply (run_open_failed L input_file (Some output_file) w source data
                  (Py.EOther msg) Hin Hload Hopen). }
  done.
Qed.

Lemma other_exception_is_reported_and_nothing_written_witness :
  Py.main Sample.lib ["remove_screenshot_data.py"; "hitl"] Sample.start
  = (Py.Raise (Py.SystemExit 1),
     printed Sample.start
       ["Error processing file: [Errno 21] Is a directory: 'hitl'"]).
Proof.
  apply (other_exception_is_reported_and_nothing_written Sample.lib
           ["remove_screenshot_data.py"; "hitl"] Sample.start
           "hitl" "hitl" "[Errno 21] Is a directory: 'hitl'");
    [reflexivity | reflexivity | by left].
Defined.

(** X9. Of its command line the script reads [sys.argv[1]] and
    [sys.argv[2]] and nothing else: the program name and any further
    argument change nothing, and naming the input file as the output is
    the same as giving no output. Two command lines with the same input
    path and the same effective output path run alike. *)
Theorem main_reads_two_arguments
    (L : Py.library) (argv1 argv2 : list string) (w : Py.world) :
  argv1 !! 1 = argv2 !! 1 →
  output_path argv1 = output_path argv2 →
  Py.main L argv1 w = Py.main L argv2 w.
Proof.
  intros Harg Hpath.
  destruct (argv1 !! 1) as [input_file |] eqn:Harg1; symmetry in Harg.
  - rewrite (output_path_default argv1 input_file Harg1) in Hpath.
    rewrite (output_path_default argv2 input_file Harg) in Hpath.
    injection Hpath as Hpath.
    destruct (Py.fs w !! Py.resolve L input_file) as [n |] eqn:Hin.
    + rewrite !(main_input_exists L _ w input_file) by (done || by rewrite Hin).
      rewrite (run_default_output L input_file (argv1 !! 2)).
      rewrite (run_default_output L input_file (argv2 !! 2)).
      by rewrite Hpath.
    + by rewrite !(main_input_missing L _ w input_file).
  - apply lookup_ge_None in Harg1, Harg.
    by rewrite !main_missing_argument by lia.
Qed.

Lemma main_reads_two_arguments_witness :
  Py.main Sample.lib
    ["remove_screenshot_data.py"; "entry.json"] Sample.start
  = Py.main Sample.lib
      ["python3"; "entry.json"; "entry.json"; "--verbose"] Sample.start.
Proof.
  apply (main_reads_two_arguments Sample.lib
           ["remove_screenshot_data.py"; "entry.json"]
           ["python3"; "entry.json"; "entry.json"; "--verbose"]);
    reflexivity.
Defined.
